(** * fix-app-icon.py: flattening the alpha channel of the app icon

    A shallow embedding of [remove_alpha] (src/fix-app-icon.py) together
    with the part of the Pillow imaging library it calls, and the
    properties the specification states about it.

    The script is a straight-line program over three kinds of effects: it
    reads and writes files, it prints to the console, and every failure is
    a Python exception caught by one [try ... except Exception] block.
    These are modelled by a state-and-exception monad [Py] over a [World]
    made of a file system and a console.  Images are values: a mode
    string, a size and row-major pixel data. *)

From Stdlib Require Import ZArith QArith Lia.
From stdpp Require Import base strings list gmap pretty.

Close Scope Q_scope.
Local Open Scope string_scope.
Local Open Scope Z_scope.

(** ** Exceptions, the world, and the monad of a Python program *)

(** The exception classes the script can meet.  Each carries the text that
    [str(e)] yields, which is what the handler prints. *)
Inductive Exception : Type :=
  | FileNotFoundError (msg : string)
  | PermissionError (msg : string)
  | UnidentifiedImageError (msg : string)
  | OSError (msg : string)
  | ValueError (msg : string)
  | IndexError (msg : string).

Definition str (e : Exception) : string :=
  match e with
  | FileNotFoundError m | PermissionError m | UnidentifiedImageError m
  | OSError m | ValueError m | IndexError m => m
  end.

(** The outcome of evaluating an expression: a value, or a raised
    exception. *)
Inductive Exc (A : Type) : Type :=
  | Raise (e : Exception)
  | Return (a : A).
Arguments Raise {A} e.
Arguments Return {A} a.

(** What the program can observe and change: the files (by path), the
    paths that can be opened for writing, and the lines printed so far. *)
Record World : Type := mkWorld {
  fs : gmap string (list Byte.byte);
  writable : string → bool;
  stdout : list string
}.

Definition Py (A : Type) : Type := World → Exc A * World.

#[global] Instance Exc_ret : MRet Exc := λ A a, Return a.
#[global] Instance Exc_bind : MBind Exc := λ A B f m,
  match m with
  | Raise e => Raise e
  | Return a => f a
  end.

#[global] Instance Py_ret : MRet Py := λ A a w, (Return a, w).
#[global] Instance Py_bind : MBind Py := λ A B f m w,
  match m w with
  | (Raise e, w') => (Raise e, w')
  | (Return a, w') => f a w'
  end.

(** A computation that does not touch the world. *)
Definition pure {A} (m : Exc A) : Py A := λ w, (m, w).

(** [try: body except Exception as e: handler e]. *)
Definition try_except {A} (body : Py A) (handler : Exception → Py A) : Py A :=
  λ w, match body w with
       | (Raise e, w') => handler e w'
       | (Return a, w') => (Return a, w')
       end.

(** [print(line)], on a console that takes any text. *)
Definition print (line : string) : Py unit :=
  λ w, (Return (), mkWorld (fs w) (writable w) (stdout w ++ [line])).

(** Tuple indexing [t[i]]. *)
Definition getitem {A} (t : list A) (i : nat) : Exc A :=
  match t !! i with
  | Some x => Return x
  | None => Raise (IndexError "tuple index out of range")
  end.

(** ** The imaging library (Pillow), as far as the script uses it *)

(** A pixel is the list of its band values, each an unsigned byte. *)
Abbreviation pixel := (list Z).

(** The C core keeps pixels in unsigned bytes. *)
Definition UINT8 (v : Z) : Z := v mod 256.

(** Rounded division by 255 and the blend built on it, as the core
    computes them on machine integers:
      DIV255(a, tmp)  =  (tmp = a + 128, ((tmp >> 8) + tmp) >> 8)
      BLEND(mask, in1, in2, tmp) = DIV255(in1 * (255 - mask) + in2 * mask, tmp)
      PREBLEND(mask, in1, in2, tmp) = MULDIV255(in1, 255 - mask, tmp) + in2 *)
Definition DIV255 (a : Z) : Z :=
  let tmp := a + 128 in Z.shiftr (Z.shiftr tmp 8 + tmp) 8.

Definition BLEND (mask in1 in2 : Z) : Z :=
  UINT8 (DIV255 (in1 * (255 - mask) + in2 * mask)).

Definition PREBLEND (mask in1 in2 : Z) : Z :=
  UINT8 (DIV255 (in1 * (255 - mask)) + in2).

Module Image.

(** An image: [img.mode], [img.size] (width, height) and the pixels in
    row-major order. *)
Record Image : Type := mkImage {
  mode : string;
  size : nat * nat;
  data : list pixel
}.

(** The parts of the library that live in its format plug-ins and its
    conversion tables; the script fixes none of them.
    - [decode] reads the bytes of a file into an image or raises;
    - [encode format optimize img] yields the bytes the encoder emits and
      the exception that interrupted it, if any;
    - [convert_data from to pixels] is the colour-space conversion. *)
Class Plugins : Type := {
  decode : list Byte.byte → Exc Image;
  encode : string → bool → Image → list Byte.byte * option Exception;
  convert_data : string → string → list pixel → Exc (list pixel)
}.

(** The band names of each mode. *)
Definition MODES : gmap string (list string) :=
  list_to_map
    [ ("1", ["1"]); ("L", ["L"]); ("P", ["P"]); ("I", ["I"]); ("F", ["F"]);
      ("LA", ["L"; "A"]); ("La", ["L"; "a"]); ("PA", ["P"; "A"]);
      ("RGB", ["R"; "G"; "B"]); ("YCbCr", ["Y"; "Cb"; "Cr"]);
      ("LAB", ["L"; "A"; "B"]); ("HSV", ["H"; "S"; "V"]);
      ("RGBA", ["R"; "G"; "B"; "A"]); ("RGBa", ["R"; "G"; "B"; "a"]);
      ("RGBX", ["R"; "G"; "B"; "X"]); ("CMYK", ["C"; "M"; "Y"; "K"]) ].

(** [img.getbands()]; the special modes ("I;16" and its kin) have one
    band. *)
Definition getbands (m : string) : list string := default [m] (MODES !! m).

(** An image as the library builds them: as many pixels as the size says,
    as many values per pixel as the mode has bands, every value a byte. *)
Definition well_formed (img : Image) : Prop :=
  length (data img) = ((size img).1 * (size img).2)%nat ∧
  Forall (λ p : pixel, length p = length (getbands (mode img)) ∧
                        Forall (λ v, 0 ≤ v ≤ 255) p) (data img).

(** [Image.new(mode, size, color)]. *)
Definition new (mode : string) (size : nat * nat) (color : pixel) : Image :=
  mkImage mode size (replicate (size.1 * size.2) color).

(** One band as an image of mode L. *)
Definition getband (self : Image) (k : nat) : Image :=
  mkImage "L" (size self) ((λ p : pixel, [p !!! k]) <$> data self).

(** [img.split()]: the tuple of the bands, in band order. *)
Definition split (self : Image) : list Image :=
  let bands := length (getbands (mode self)) in
  if decide (bands = 1%nat) then [self]
  else getband self <$> seq 0 bands.

(** The core keeps every multi-band pixel in four bytes: a two-band pixel
    (L, A) as (L, L, L, A), a three-band pixel with a padding byte. *)
Definition pack (m : string) (p : pixel) : list Z :=
  match length (getbands m), p with
  | 2%nat, [l; a] => [l; l; l; a]
  | 3%nat, [x; y; z] => [x; y; z; 255]
  | _, _ => p
  end.

Definition unpack (m : string) (s : list Z) : pixel :=
  match length (getbands m), s with
  | 2%nat, [l; _; _; a] => [l; a]
  | n, _ => take n s
  end.

(** The core's paste through a mask, pixel by pixel.  The mask's mode
    selects the rule: "1" copies where the mask is set, "L" blends with the
    mask value, "LA" and "RGBA" blend with the mask's alpha byte, "RGBa"
    blends premultiplied.  The script only pastes onto an RGB canvas
    through an "L" mask: there the three colour bytes are blended and the
    padding byte is dropped again by [unpack]. *)
Definition paste_pixel (mask_mode : string) (out inn mask : list Z) : Exc (list Z) :=
  if decide (mask_mode = "1") then
    Return (if decide (mask !!! 0%nat = 0) then out else inn)
  else if decide (mask_mode = "L") then
    Return (zip_with (BLEND (mask !!! 0%nat)) out inn)
  else if decide (mask_mode = "LA" ∨ mask_mode = "RGBA") then
    Return (zip_with (BLEND (mask !!! 3%nat)) out inn)
  else if decide (mask_mode = "RGBa") then
    Return (zip_with (PREBLEND (mask !!! 3%nat)) out inn)
  else Raise (ValueError "bad transparency mask").

Fixpoint paste_data (mo mi mm : string) (out inn mask : list pixel)
  : Exc (list pixel) :=
  match out, inn, mask with
  | o :: out', i :: inn', m :: mask' =>
      p ← paste_pixel mm (pack mo o) (pack mi i) (pack mm m);
      rest ← paste_data mo mi mm out' inn' mask';
      Return (unpack mo p :: rest)
  | _, _, _ => Return out
  end.

Definition core_paste (out inn mask : Image) : Exc Image :=
  if decide (size inn = size out ∧ size mask = size out) then
    d ← paste_data (mode out) (mode inn) (mode mask) (data out) (data inn) (data mask);
    Return (mkImage (mode out) (size out) d)
  else Raise (ValueError "images do not match").

Section WithPlugins.
Context `{!Plugins}.

(** [img.convert(mode)]. *)
Definition convert (self : Image) (m : string) : Exc Image :=
  if decide (m = mode self) then Return self
  else d ← convert_data (mode self) m (data self);
       Return (mkImage m (size self) d).

(** [self.paste(im, mask=mask)] with the default box: the whole of [im] at
    the origin.  The source is converted to the destination's mode first,
    unless the destination is RGB and the source carries its own alpha.
    Python updates [self] in place; here the updated image is returned. *)
Definition paste (self im mask : Image) : Exc Image :=
  im ← (if decide (mode self ≠ mode im ∧
                    (mode self ≠ "RGB" ∨ mode im ∉ ["LA"; "RGBA"; "RGBa"]))
        then convert im (mode self) else Return im);
  core_paste self im mask.

(** [Image.open(fp)].  The library reads the header here and the pixels on
    first use; both happen before the script writes anything, so the model
    decodes at once. *)
Definition open (fp : string) : Py Image := λ w,
  match fs w !! fp with
  | None =>
      (Raise (FileNotFoundError
                ("[Errno 2] No such file or directory: '" ++ fp ++ "'")), w)
  | Some bytes => (decode bytes, w)
  end.

(** [img.save(fp, format, optimize=...)]: open [fp] for writing, which
    truncates it, and run the encoder.  If the encoder is interrupted, a
    file that this call created is removed and one that existed keeps what
    was written so far. *)
Definition save (self : Image) (fp format : string) (optimize : bool) : Py unit :=
  λ w,
  if writable w fp then
    match encode format optimize self with
    | (bytes, None) =>
        (Return (), mkWorld (<[fp := bytes]> (fs w)) (writable w) (stdout w))
    | (bytes, Some e) =>
        (Raise e,
         mkWorld (match fs w !! fp with
                  | None => fs w
                  | Some _ => <[fp := bytes]> (fs w)
                  end) (writable w) (stdout w))
    end
  else (Raise (PermissionError
                 ("[Errno 13] Permission denied: '" ++ fp ++ "'")), w).

End WithPlugins.
End Image.

(** ** The script *)

(** How an f-string shows a size tuple. *)
Definition repr_size (size : nat * nat) : string :=
  "(" ++ pretty size.1 ++ ", " ++ pretty size.2 ++ ")".

Section Script.
Context `{!Image.Plugins}.

Definition remove_alpha (input_path output_path : string) : Py bool :=
  try_except
    (img ← Image.open input_path;
     img ← (if decide (Image.mode img ∈ ["RGBA"; "LA"]) then
              let background := Image.new "RGB" (Image.size img) [255; 255; 255] in
              background ←
                (if decide (Image.mode img = "RGBA") then
                   pure (mask ← getitem (Image.split img) 3;
                         Image.paste background img mask)
                 else
                   pure (mask ← getitem (Image.split img) 1;
                         Image.paste background img mask));
              mret background
            else if decide (Image.mode img ≠ "RGB") then
              pure (Image.convert img "RGB")
            else mret img);
     Image.save img output_path "PNG" true;;
     print ("✅ Icon fixed: " ++ output_path);;
     print ("   Mode: " ++ Image.mode img);;
     print ("   Size: " ++ repr_size (Image.size img));;
     mret true)
    (λ e, print ("❌ Error: " ++ str e);; mret false).

Definition input_file : string :=
  "Minds Flow/Assets.xcassets/AppIcon.appiconset/AppIcon-1024.png".
Definition output_file : string :=
  "Minds Flow/Assets.xcassets/AppIcon.appiconset/AppIcon-1024.png".

(** The entry point; its value is the exit status of the process. *)
Definition main : Py Z :=
  print "🔧 Fixing App Icon...";;
  print ("   Input: " ++ input_file);;
  ok ← remove_alpha input_file output_file;
  if ok : bool then
    print "✅ App icon is now ready for App Store!";; mret 0
  else
    print "❌ Failed to fix app icon";; mret 1.

End Script.

(** ** Vocabulary of the properties *)

Definition white : pixel := [255; 255; 255].

(** The value the specification gives for a channel [c] under alpha [a]
    over white: c * alpha + white * (1 - alpha), alpha normalised to
    [0, 1]. *)
Definition composite (c a : Z) : Q :=
  (inject_Z c * (inject_Z a / 255) + 255 * (1 - inject_Z a / 255))%Q.

(** [v] is the integer nearest to [q]. *)
Definition nearest (v : Z) (q : Q) : Prop :=
  (q - (1 # 2) < inject_Z v)%Q ∧ (inject_Z v < q + (1 # 2))%Q.

(** A grey pixel with alpha, read as a colour pixel with alpha. *)
Definition grey_as_colour (p : pixel) : pixel :=
  match p with
  | [l; a] => [l; l; l; a]
  | _ => p
  end.

(** A colour pixel with alpha, blended over white by the core's rule. *)
Definition over_white (p : pixel) : pixel :=
  match p with
  | [r; g; b; a] => [BLEND a 255 r; BLEND a 255 g; BLEND a 255 b]
  | _ => p
  end.

Inductive stage : Type := Decoding | Compositing | Encoding.

(** The world after the handler has printed [e], and the handler's
    result. *)
Definition failed (e : Exception) (w : World) : Exc bool * World :=
  (Return false,
   mkWorld (fs w) (writable w) (stdout w ++ ["❌ Error: " ++ str e])).

(** The world after a successful run that wrote [bytes'] for [img']. *)
Definition succeeded (output_path : string) (bytes' : list Byte.byte)
    (img' : Image.Image) (w : World) : Exc bool * World :=
  (Return true,
   mkWorld (<[output_path := bytes']> (fs w)) (writable w)
     (stdout w ++ [ "✅ Icon fixed: " ++ output_path;
                    "   Mode: " ++ Image.mode img';
                    "   Size: " ++ repr_size (Image.size img') ])).

Section Vocabulary.
Context `{!Image.Plugins}.

(** Lines 16 to 26 of the script on their own: what becomes of the decoded
    image before it is saved. *)
Definition flatten_image (img : Image.Image) : Exc Image.Image :=
  if decide (Image.mode img ∈ ["RGBA"; "LA"]) then
    let background := Image.new "RGB" (Image.size img) [255; 255; 255] in
    if decide (Image.mode img = "RGBA") then
      mask ← getitem (Image.split img) 3; Image.paste background img mask
    else
      mask ← getitem (Image.split img) 1; Image.paste background img mask
  else if decide (Image.mode img ≠ "RGB") then Image.convert img "RGB"
  else Return img.

(** A run that succeeds: the file at the input path decodes to [img], and
    the file at the output path afterwards holds the encoding of [img'],
    the image the script handed to [save]. *)
Definition writes (input_path output_path : string) (w w' : World)
    (img img' : Image.Image) : Prop :=
  remove_alpha input_path output_path w = (Return true, w') ∧
  ∃ bytes bytes',
    fs w !! input_path = Some bytes ∧
    Image.decode bytes = Return img ∧
    flatten_image img = Return img' ∧
    Image.encode "PNG" true img' = (bytes', None) ∧
    fs w' !! output_path = Some bytes'.

(** A run that fails, the stage at which it does, and the exception. *)
Inductive fails_at (input_path output_path : string) (w : World)
  : stage → Exception → Prop :=
  | missing_input :
      fs w !! input_path = None →
      fails_at input_path output_path w Decoding
        (FileNotFoundError
           ("[Errno 2] No such file or directory: '" ++ input_path ++ "'"))
  | corrupt_input bytes e :
      fs w !! input_path = Some bytes →
      Image.decode bytes = Raise e →
      fails_at input_path output_path w Decoding e
  | composite_error bytes img e :
      fs w !! input_path = Some bytes →
      Image.decode bytes = Return img →
      flatten_image img = Raise e →
      fails_at input_path output_path w Compositing e
  | unwritable_output bytes img img' :
      fs w !! input_path = Some bytes →
      Image.decode bytes = Return img →
      flatten_image img = Return img' →
      writable w output_path = false →
      fails_at input_path output_path w Encoding
        (PermissionError
           ("[Errno 13] Permission denied: '" ++ output_path ++ "'"))
  | encoder_error bytes img img' partial e :
      fs w !! input_path = Some bytes →
      Image.decode bytes = Return img →
      flatten_image img = Return img' →
      writable w output_path = true →
      Image.encode "PNG" true img' = (partial, Some e) →
      fails_at input_path output_path w Encoding e.

End Vocabulary.

(** ** A plain container format, to run the script on concrete files

    One byte for the mode, one for the width, one for the height, then the
    band values of the pixels in row-major order.  It stands in for the
    format plug-ins wherever a property is evaluated on a concrete world. *)
Module Raw.

Definition mode_of_tag (t : Byte.byte) : option string :=
  match Byte.to_N t with
  | 0%N => Some "L"
  | 1%N => Some "LA"
  | 2%N => Some "RGB"
  | 3%N => Some "RGBA"
  | _ => None
  end.

Definition tag_of_mode (m : string) : option Byte.byte :=
  if decide (m = "L") then Some Byte.x00
  else if decide (m = "LA") then Some Byte.x01
  else if decide (m = "RGB") then Some Byte.x02
  else if decide (m = "RGBA") then Some Byte.x03
  else None.

Definition Z_of_byte (b : Byte.byte) : Z := Z.of_N (Byte.to_N b).
Definition byte_of_Z (v : Z) : option Byte.byte :=
  if decide (0 ≤ v) then Byte.of_N (Z.to_N v) else None.
Definition byte_of_nat (n : nat) : option Byte.byte := Byte.of_N (N.of_nat n).

Fixpoint chunks {A} (n count : nat) (l : list A) : list (list A) :=
  match count with
  | O => []
  | S count' => take n l :: chunks n count' (drop n l)
  end.

Definition decode (bytes : list Byte.byte) : Exc Image.Image :=
  match bytes with
  | t :: w :: h :: body =>
      match mode_of_tag t with
      | Some m =>
          let w := N.to_nat (Byte.to_N w) in
          let h := N.to_nat (Byte.to_N h) in
          let n := length (Image.getbands m) in
          if decide (length body = (w * h * n)%nat) then
            Return (Image.mkImage m (w, h) (chunks n (w * h) (Z_of_byte <$> body)))
          else Raise (OSError "image file is truncated")
      | None => Raise (UnidentifiedImageError "cannot identify image file")
      end
  | _ => Raise (UnidentifiedImageError "cannot identify image file")
  end.

Definition encode (format : string) (optimize : bool) (img : Image.Image)
  : list Byte.byte * option Exception :=
  match tag_of_mode (Image.mode img),
        byte_of_nat (Image.size img).1, byte_of_nat (Image.size img).2,
        mapM byte_of_Z (concat (Image.data img)) with
  | Some t, Some w, Some h, Some body => (t :: w :: h :: body, None)
  | _, _, _, _ =>
      ([], Some (OSError ("cannot write mode " ++ Image.mode img ++ " as " ++ format)))
  end.

(** Grey to colour repeats the value; colour with alpha to colour drops
    the alpha band. *)
Definition convert_data (from to : string) (d : list pixel) : Exc (list pixel) :=
  if decide (from = "L" ∧ to = "RGB") then
    Return ((λ p : pixel, [p !!! 0%nat; p !!! 0%nat; p !!! 0%nat]) <$> d)
  else if decide (from = "RGBA" ∧ to = "RGB") then
    Return (take 3 <$> d)
  else Raise (ValueError ("conversion from " ++ from ++ " to " ++ to ++ " not supported")).

Definition plugins : Image.Plugins :=
  {| Image.decode := decode; Image.encode := encode;
     Image.convert_data := convert_data |}.

(** A world with one file, every path writable, nothing printed yet. *)
Definition world (path : string) (bytes : list Byte.byte) : World :=
  mkWorld {[ path := bytes ]} (λ _, true) [].

(** Files used below: a 2 x 1 RGBA icon with an opaque and a transparent
    pixel, a 1 x 1 RGBA icon with a half-transparent pixel, a 1 x 1 RGB
    icon, a 1 x 1 LA icon, a 1 x 1 grey icon, and a file that is no image. *)
Definition rgba_file : list Byte.byte :=
  [ Byte.x03; Byte.x02; Byte.x01;
    Byte.x0a; Byte.x14; Byte.x1e; Byte.xff;
    Byte.x28; Byte.x32; Byte.x3c; Byte.x00 ].
Definition half_file : list Byte.byte :=
  [ Byte.x03; Byte.x01; Byte.x01; Byte.x01; Byte.x01; Byte.x01; Byte.x80 ].
Definition rgb_file : list Byte.byte :=
  [ Byte.x02; Byte.x01; Byte.x01; Byte.x0a; Byte.x14; Byte.x1e ].
Definition la_file : list Byte.byte :=
  [ Byte.x01; Byte.x01; Byte.x01; Byte.x64; Byte.x80 ].
Definition grey_file : list Byte.byte :=
  [ Byte.x00; Byte.x01; Byte.x01; Byte.x64 ].
Definition corrupt_file : list Byte.byte := [ Byte.xff; Byte.xd8 ].

(** The images in those files, and what the script makes of them. *)
Definition rgba_image : Image.Image :=
  Image.mkImage "RGBA" (2%nat, 1%nat) [[10; 20; 30; 255]; [40; 50; 60; 0]].
Definition rgba_flat : Image.Image :=
  Image.mkImage "RGB" (2%nat, 1%nat) [[10; 20; 30]; [255; 255; 255]].
Definition half_image : Image.Image :=
  Image.mkImage "RGBA" (1%nat, 1%nat) [[1; 1; 1; 128]].
Definition half_flat : Image.Image :=
  Image.mkImage "RGB" (1%nat, 1%nat) [[128; 128; 128]].
Definition rgb_image : Image.Image :=
  Image.mkImage "RGB" (1%nat, 1%nat) [[10; 20; 30]].
Definition la_image : Image.Image :=
  Image.mkImage "LA" (1%nat, 1%nat) [[100; 128]].
Definition la_flat : Image.Image :=
  Image.mkImage "RGB" (1%nat, 1%nat) [[177; 177; 177]].

(** The script on this format, and the world it leaves. *)
Definition run (input_path output_path : string) (w : World) : Exc bool * World :=
  remove_alpha (H := plugins) input_path output_path w.
Definition after (input_path output_path : string) (w : World) : World :=
  (run input_path output_path w).2.

(** A second world: the same icon at the input path, an older file at the
    output path, and a line already on the console. *)
Definition busy_world : World :=
  mkWorld {[ "in.png" := rgba_file; "out.png" := corrupt_file ]} (λ _, true)
    ["earlier output"].

(** The same format with a library that converts no mode. *)
Definition strict_plugins : Image.Plugins :=
  {| Image.decode := decode; Image.encode := encode;
     Image.convert_data := λ from to _,
       Raise (ValueError ("conversion from " ++ from ++ " to " ++ to ++ " not supported")) |}.

(** A world whose files cannot be opened for writing. *)
Definition locked_world (path : string) (bytes : list Byte.byte) : World :=
  mkWorld {[ path := bytes ]} (λ _, false) [].

(** A 2 x 1 LA icon with an opaque and a transparent pixel. *)
Definition la2_file : list Byte.byte :=
  [ Byte.x01; Byte.x02; Byte.x01; Byte.x64; Byte.xff; Byte.x32; Byte.x00 ].
Definition la2_image : Image.Image :=
  Image.mkImage "LA" (2%nat, 1%nat) [[100; 255]; [50; 0]].
Definition la2_flat : Image.Image :=
  Image.mkImage "RGB" (2%nat, 1%nat) [[100; 100; 100]; [255; 255; 255]].

End Raw.

(** * Properties *)

(** ** Arithmetic of the blend *)

Lemma DIV255_nearest (x : Z) :
  0 ≤ x ≤ 255 * 255 → -127 ≤ 255 * DIV255 x - x ≤ 127.
Proof.
  intros Hx. unfold DIV255.
  rewrite !Z.shiftr_div_pow2 by lia. change (2 ^ 8) with 256.
  Z.div_mod_to_equations. lia.
Qed.

Lemma DIV255_range (x : Z) : 0 ≤ x ≤ 255 * 255 → 0 ≤ DIV255 x ≤ 255.
Proof. intros Hx. pose proof (DIV255_nearest x Hx). lia. Qed.

Lemma BLEND_in_range (a bg c : Z) :
  0 ≤ a ≤ 255 → 0 ≤ bg ≤ 255 → 0 ≤ c ≤ 255 →
  0 ≤ bg * (255 - a) + c * a ≤ 255 * 255.
Proof. intros. nia. Qed.

Lemma BLEND_nearest (a bg c : Z) :
  0 ≤ a ≤ 255 → 0 ≤ bg ≤ 255 → 0 ≤ c ≤ 255 →
  0 ≤ BLEND a bg c ≤ 255 ∧
  -127 ≤ 255 * BLEND a bg c - (bg * (255 - a) + c * a) ≤ 127.
Proof.
  intros Ha Hbg Hc. pose proof (BLEND_in_range a bg c Ha Hbg Hc) as Hx.
  pose proof (DIV255_nearest _ Hx). pose proof (DIV255_range _ Hx).
  unfold BLEND, UINT8. rewrite Z.mod_small by lia. lia.
Qed.

Lemma BLEND_opaque (bg c : Z) : 0 ≤ c ≤ 255 → BLEND 255 bg c = c.
Proof.
  intros Hc. unfold BLEND.
  replace (bg * (255 - 255) + c * 255) with (c * 255) by lia.
  assert (Hx : 0 ≤ c * 255 ≤ 255 * 255) by lia.
  pose proof (DIV255_nearest _ Hx).
  unfold UINT8. rewrite Z.mod_small; lia.
Qed.

Lemma BLEND_transparent (c : Z) : BLEND 0 255 c = 255.
Proof.
  unfold BLEND. replace (255 * (255 - 0) + c * 0) with (255 * 255) by lia.
  reflexivity.
Qed.

Lemma nearest_composite (v c a : Z) :
  -127 ≤ 255 * v - (255 * (255 - a) + c * a) ≤ 127 →
  nearest v (composite c a).
Proof.
  intros Hv.
  unfold nearest, composite, Qlt, Qminus, Qplus, Qmult, Qdiv, Qinv, Qopp, inject_Z.
  cbn. lia.
Qed.

Lemma composite_integer (v c a : Z) :
  (inject_Z v == composite c a)%Q → 255 * v = 255 * (255 - a) + c * a.
Proof.
  unfold composite, Qeq, Qminus, Qplus, Qmult, Qdiv, Qinv, Qopp, inject_Z.
  cbn. lia.
Qed.

(** ** The library calls of the script *)

Lemma getbands_L : Image.getbands "L" = ["L"].
Proof. reflexivity. Qed.
Lemma getbands_LA : Image.getbands "LA" = ["L"; "A"].
Proof. reflexivity. Qed.
Lemma getbands_RGB : Image.getbands "RGB" = ["R"; "G"; "B"].
Proof. reflexivity. Qed.
Lemma getbands_RGBA : Image.getbands "RGBA" = ["R"; "G"; "B"; "A"].
Proof. reflexivity. Qed.

Lemma paste_pixel_L (out inn : list Z) (a : Z) :
  Image.paste_pixel "L" out inn (Image.pack "L" [a]) =
  Return (zip_with (BLEND a) out inn).
Proof. reflexivity. Qed.

(** Pasting onto a white canvas through the band [k] of the source. *)
Lemma paste_data_white (mi : string) (k : nat) (inn : list pixel) :
  Image.paste_data "RGB" mi "L" (replicate (length inn) white) inn
    ((λ p : pixel, [p !!! k]) <$> inn) =
  Return ((λ p : pixel,
             Image.unpack "RGB"
               (zip_with (BLEND (p !!! k)) [255; 255; 255; 255] (Image.pack mi p)))
          <$> inn).
Proof.
  induction inn as [|p inn IH]; [reflexivity|].
  cbn [length replicate fmap list_fmap Image.paste_data].
  rewrite paste_pixel_L. cbn [mbind Exc_bind].
  change (list_fmap _ _ ?f inn) with (f <$> inn). rewrite IH.
  reflexivity.
Qed.

Lemma core_paste_mode_size (out inn mask r : Image.Image) :
  Image.core_paste out inn mask = Return r →
  Image.mode r = Image.mode out ∧ Image.size r = Image.size out.
Proof.
  unfold Image.core_paste. case_decide; [|discriminate].
  destruct (Image.paste_data _ _ _ _ _ _); cbn; [discriminate|].
  intros [= <-]. done.
Qed.

Section Calls.
Context `{!Image.Plugins}.

Lemma convert_mode_size (img r : Image.Image) (m : string) :
  Image.convert img m = Return r →
  Image.mode r = m ∧ Image.size r = Image.size img.
Proof.
  unfold Image.convert. case_decide as Hm.
  - intros [= <-]. done.
  - destruct (Image.convert_data _ _ _); cbn; [discriminate|].
    intros [= <-]. done.
Qed.

Lemma paste_mode_size (self im mask r : Image.Image) :
  Image.paste self im mask = Return r →
  Image.mode r = Image.mode self ∧ Image.size r = Image.size self.
Proof.
  unfold Image.paste.
  destruct (if decide _ then _ else _); cbn; [discriminate|].
  apply core_paste_mode_size.
Qed.

(** An image that carries its own alpha goes onto an RGB canvas as it
    is. *)
Lemma paste_alpha_on_RGB (self im mask : Image.Image) :
  Image.mode self = "RGB" →
  Image.mode im ∈ ["LA"; "RGBA"; "RGBa"] →
  Image.paste self im mask = Image.core_paste self im mask.
Proof.
  intros Hs Hi. unfold Image.paste.
  rewrite decide_False; [reflexivity|].
  intros [_ [?|?]]; done.
Qed.

Lemma flatten_image_mode_size (img img' : Image.Image) :
  flatten_image img = Return img' →
  Image.mode img' = "RGB" ∧ Image.size img' = Image.size img.
Proof.
  unfold flatten_image. repeat case_decide.
  - destruct (getitem _ _); cbn; [discriminate|].
    intros ?%paste_mode_size. done.
  - destruct (getitem _ _); cbn; [discriminate|].
    intros ?%paste_mode_size. done.
  - apply convert_mode_size.
  - intros [= <-]. split; [|done].
    destruct (decide (Image.mode img = "RGB")); done.
Qed.

Lemma flatten_image_RGB (img : Image.Image) :
  Image.mode img = "RGB" → flatten_image img = Return img.
Proof.
  intros Hm. unfold flatten_image. rewrite Hm.
  rewrite decide_False
    by (rewrite !elem_of_cons, elem_of_nil; intros [?|[?|[]]]; discriminate).
  by rewrite decide_False by (by intros ?).
Qed.

Lemma getitem_split (img : Image.Image) (k : nat) :
  (1 < length (Image.getbands (Image.mode img)))%nat →
  (k < length (Image.getbands (Image.mode img)))%nat →
  getitem (Image.split img) k = Return (Image.getband img k).
Proof.
  intros Hn Hk. unfold getitem, Image.split.
  rewrite decide_False by lia.
  by rewrite list_lookup_fmap, lookup_seq_lt.
Qed.

(** Both alpha branches: a white canvas, the source pasted through its
    band [k]. *)
Lemma paste_on_white (img : Image.Image) (k : nat) :
  Image.mode img ∈ ["LA"; "RGBA"; "RGBa"] →
  length (Image.data img) = ((Image.size img).1 * (Image.size img).2)%nat →
  Image.paste (Image.new "RGB" (Image.size img) [255; 255; 255]) img
    (Image.getband img k) =
  Return (Image.mkImage "RGB" (Image.size img)
            ((λ p : pixel,
                Image.unpack "RGB"
                  (zip_with (BLEND (p !!! k)) [255; 255; 255; 255]
                     (Image.pack (Image.mode img) p)))
             <$> Image.data img)).
Proof.
  intros Hm Hlen. rewrite paste_alpha_on_RGB by done.
  unfold Image.core_paste, Image.new, Image.getband; cbn.
  rewrite decide_True by done.
  rewrite <- Hlen. change [255; 255; 255] with white.
  by rewrite paste_data_white.
Qed.

Lemma flatten_image_RGBA (img : Image.Image) :
  Image.well_formed img → Image.mode img = "RGBA" →
  flatten_image img =
  Return (Image.mkImage "RGB" (Image.size img) (over_white <$> Image.data img)).
Proof.
  intros [Hlen Hpx] Hm. unfold flatten_image.
  rewrite decide_True by (rewrite Hm, !elem_of_cons; auto).
  rewrite decide_True by done.
  rewrite getitem_split by (rewrite Hm, getbands_RGBA; cbn; lia).
  cbn [mbind Exc_bind].
  rewrite paste_on_white by (rewrite ?Hm, ?elem_of_cons; auto).
  do 2 f_equal. apply Forall_fmap_ext.
  eapply Forall_impl; [exact Hpx|]. intros p [Hp _].
  rewrite Hm, getbands_RGBA in *.
  destruct p as [|r [|g [|b [|a [|]]]]]; try discriminate. reflexivity.
Qed.

Lemma flatten_image_LA (img : Image.Image) :
  Image.well_formed img → Image.mode img = "LA" →
  flatten_image img =
  Return (Image.mkImage "RGB" (Image.size img)
            ((λ p, over_white (grey_as_colour p)) <$> Image.data img)).
Proof.
  intros [Hlen Hpx] Hm. unfold flatten_image.
  rewrite decide_True by (rewrite Hm, !elem_of_cons; auto).
  rewrite decide_False by (rewrite Hm; discriminate).
  rewrite getitem_split by (rewrite Hm, getbands_LA; cbn; lia).
  cbn [mbind Exc_bind].
  rewrite paste_on_white by (rewrite ?Hm, ?elem_of_cons; auto).
  do 2 f_equal. apply Forall_fmap_ext.
  eapply Forall_impl; [exact Hpx|]. intros p [Hp _].
  rewrite Hm, getbands_LA in *.
  destruct p as [|l [|a [|]]]; try discriminate. reflexivity.
Qed.

End Calls.

(** ** Running the script *)

Section Run.
Context `{!Image.Plugins}.

(** The mode branch of the script is [flatten_image], and leaves the world
    alone. *)
Lemma branch_is_flatten_image (img : Image.Image) (w : World) :
  (if decide (Image.mode img ∈ ["RGBA"; "LA"]) then
     let background := Image.new "RGB" (Image.size img) [255; 255; 255] in
     background ←
       (if decide (Image.mode img = "RGBA") then
          pure (mask ← getitem (Image.split img) 3;
                Image.paste background img mask)
        else
          pure (mask ← getitem (Image.split img) 1;
                Image.paste background img mask));
     mret background
   else if decide (Image.mode img ≠ "RGB") then
     pure (Image.convert img "RGB")
   else mret img) w = (flatten_image img, w).
Proof.
  unfold flatten_image, mbind, Py_bind, pure, mret, Py_ret.
  repeat case_decide; cbn;
    repeat match goal with |- context [match ?x with _ => _ end] => destruct x end;
    reflexivity.
Qed.

(** The whole run, stage by stage. *)
Lemma remove_alpha_run (input_path output_path : string) (w : World) :
  remove_alpha input_path output_path w =
  match fs w !! input_path with
  | None =>
      failed (FileNotFoundError
                ("[Errno 2] No such file or directory: '" ++ input_path ++ "'")) w
  | Some bytes =>
      match Image.decode bytes with
      | Raise e => failed e w
      | Return img =>
          match flatten_image img with
          | Raise e => failed e w
          | Return img' =>
              if writable w output_path then
                match Image.encode "PNG" true img' with
                | (bytes', None) => succeeded output_path bytes' img' w
                | (partial, Some e) =>
                    failed e
                      (mkWorld (match fs w !! output_path with
                                | None => fs w
                                | Some _ => <[output_path := partial]> (fs w)
                                end) (writable w) (stdout w))
                end
              else
                failed (PermissionError
                          ("[Errno 13] Permission denied: '" ++ output_path ++ "'")) w
          end
      end
  end.
Proof.
  unfold remove_alpha, try_except, mbind, Py_bind, Image.open.
  destruct (fs w !! input_path) as [bytes|]; [|reflexivity].
  destruct (Image.decode bytes) as [e|img]; [reflexivity|].
  rewrite branch_is_flatten_image.
  destruct (flatten_image img) as [e|img']; [reflexivity|].
  unfold Image.save.
  destruct (writable w output_path); [|reflexivity].
  destruct (Image.encode "PNG" true img') as [bytes' [e|]]; [reflexivity|].
  unfold succeeded, print, mret, Py_ret; cbn.
  by rewrite <- !app_assoc.
Qed.

End Run.

(** ** What a successful run wrote *)

Section Claims.
Context `{!Image.Plugins}.

Lemma remove_alpha_true (input_path output_path : string) (w w' : World) :
  remove_alpha input_path output_path w = (Return true, w') →
  ∃ bytes img img' bytes',
    fs w !! input_path = Some bytes ∧
    Image.decode bytes = Return img ∧
    flatten_image img = Return img' ∧
    writable w output_path = true ∧
    Image.encode "PNG" true img' = (bytes', None) ∧
    succeeded output_path bytes' img' w = (Return true, w').
Proof.
  rewrite remove_alpha_run.
  destruct (fs w !! input_path) as [bytes|] eqn:Hin; [|discriminate].
  destruct (Image.decode bytes) as [e|img] eqn:Hdec; [discriminate|].
  destruct (flatten_image img) as [e|img'] eqn:Hflat; [discriminate|].
  destruct (writable w output_path) eqn:Hw; [|discriminate].
  destruct (Image.encode "PNG" true img') as [bytes' [e|]] eqn:Henc; [discriminate|].
  intros Hrun. by exists bytes, img, img', bytes'.
Qed.

Lemma success_writes (input_path output_path : string) (w w' : World) :
  remove_alpha input_path output_path w = (Return true, w') →
  ∃ img img', writes input_path output_path w w' img img'.
Proof.
  intros Hrun.
  destruct (remove_alpha_true _ _ _ _ Hrun)
    as (bytes & img & img' & bytes' & Hin & Hdec & Hflat & _ & Henc & Hw').
  exists img, img'. split; [done|]. exists bytes, bytes'.
  repeat split; try done.
  injection Hw' as <-. cbn. apply lookup_insert_eq.
Qed.

Lemma writes_flatten (input_path output_path : string) (w w' : World)
    (img img' : Image.Image) :
  writes input_path output_path w w' img img' → flatten_image img = Return img'.
Proof. by intros (_ & bytes & bytes' & _ & _ & ? & _). Qed.

(** C1: whenever the operation succeeds, the image it wrote to the output
    path has mode RGB, whatever the mode of the input was. *)
Theorem output_mode_is_RGB (input_path output_path : string) (w w' : World) :
  remove_alpha input_path output_path w = (Return true, w') →
  ∃ img img',
    writes input_path output_path w w' img img' ∧ Image.mode img' = "RGB".
Proof.
  intros (img & img' & Hw)%success_writes. exists img, img'. split; [done|].
  by apply writes_flatten, flatten_image_mode_size in Hw as [? _].
Qed.

(** C7: whenever the operation succeeds, the image it wrote has the width
    and height of the image it read, in every mode branch. *)
Theorem output_size_is_input_size (input_path output_path : string)
    (w w' : World) :
  remove_alpha input_path output_path w = (Return true, w') →
  ∃ img img',
    writes input_path output_path w w' img img' ∧
    Image.size img' = Image.size img.
Proof.
  intros (img & img' & Hw)%success_writes. exists img, img'. split; [done|].
  by apply writes_flatten, flatten_image_mode_size in Hw as [_ ?].
Qed.

(** C5: an input that is already RGB is written back as it was read: same
    mode, same size, same pixels. *)
Theorem RGB_input_is_unchanged (input_path output_path : string)
    (w w' : World) (img img' : Image.Image) :
  writes input_path output_path w w' img img' →
  Image.mode img = "RGB" →
  img' = img.
Proof.
  intros Hw%writes_flatten Hm. rewrite flatten_image_RGB in Hw by done.
  by injection Hw.
Qed.





(** ** Runs that fail *)

(** The handler always returns: no exception leaves [remove_alpha]. *)
Lemma remove_alpha_returns (input_path output_path : string) (w : World) :
  ∃ ok w', remove_alpha input_path output_path w = (Return ok, w').
Proof.
  rewrite remove_alpha_run. unfold failed, succeeded.
  repeat match goal with
         | |- context [match ?x with _ => _ end] => destruct x
         end; eauto.
Qed.

(** The runs that return false are those that fail at one of the three
    stages. *)
Lemma remove_alpha_false (input_path output_path : string) (w w' : World) :
  remove_alpha input_path output_path w = (Return false, w') →
  ∃ s e, fails_at input_path output_path w s e.
Proof.
  rewrite remove_alpha_run.
  destruct (fs w !! input_path) as [bytes|] eqn:Hin;
    [|intros _; eexists _, _; by apply missing_input].
  destruct (Image.decode bytes) as [e|img] eqn:Hdec;
    [intros _; eexists _, _; by eapply corrupt_input|].
  destruct (flatten_image img) as [e|img'] eqn:Hflat;
    [intros _; eexists _, _; by eapply composite_error|].
  destruct (writable w output_path) eqn:Hw;
    [|intros _; eexists _, _; by eapply unwritable_output].
  destruct (Image.encode "PNG" true img') as [bytes' [e|]] eqn:Henc;
    [intros _; eexists _, _; by eapply encoder_error|].
  discriminate.
Qed.

(** C6: when decoding, compositing or encoding fails, the operation
    prints the error message and returns false; the failure reaches the
    caller as that boolean and not as an exception. *)
Theorem failure_is_reported (input_path output_path : string) (w : World)
    (s : stage) (e : Exception) :
  fails_at input_path output_path w s e →
  ∃ w',
    remove_alpha input_path output_path w = (Return false, w') ∧
    stdout w' = (stdout w ++ [("❌ Error: " ++ str e)%string])%list.
Proof.
  intros Hfail. rewrite remove_alpha_run.
  destruct Hfail as [Hin|bytes e Hin Hdec|bytes img e Hin Hdec Hflat
                     |bytes img img' Hin Hdec Hflat Hw
                     |bytes img img' partial e Hin Hdec Hflat Hw Henc];
    rewrite Hin, ?Hdec, ?Hflat, ?Hw, ?Henc; by eexists.
Qed.

(** C9: when decoding fails, or compositing after it, no file is touched:
    the output path is written only once both have succeeded. *)
Theorem decode_failure_leaves_files (input_path output_path : string)
    (w : World) (s : stage) (e : Exception) :
  fails_at input_path output_path w s e →
  s ≠ Encoding →
  fs (remove_alpha input_path output_path w).2 = fs w.
Proof.
  intros Hfail Hs. rewrite remove_alpha_run.
  destruct Hfail as [Hin|bytes e Hin Hdec|bytes img e Hin Hdec Hflat| |];
    try done; by rewrite Hin, ?Hdec, ?Hflat.
Qed.

(** ** Two runs on the same input *)

(** C10: two runs that find the same contents at the input path and can
    write the output path return the same boolean, and when that is true
    they read the same image and leave the same image, in the same bytes,
    at the output path. *)
Theorem remove_alpha_deterministic (input_path output_path : string)
    (w1 w2 : World) :
  fs w1 !! input_path = fs w2 !! input_path →
  writable w1 output_path = true →
  writable w2 output_path = true →
  let r1 := remove_alpha input_path output_path w1 in
  let r2 := remove_alpha input_path output_path w2 in
  r1.1 = r2.1 ∧
  (r1.1 = Return true →
   fs r1.2 !! output_path = fs r2.2 !! output_path ∧
   ∃ img img',
     writes input_path output_path w1 r1.2 img img' ∧
     writes input_path output_path w2 r2.2 img img').
Proof.
  intros Hin Hw1 Hw2 r1 r2.
  assert (Hfst : r1.1 = r2.1).
  { subst r1 r2. rewrite !remove_alpha_run, Hw1, Hw2, <- Hin.
    unfold failed, succeeded.
    repeat match goal with
           | |- context [match ?x with _ => _ end] => destruct x
           end; reflexivity. }
  split; [done|]. intros Hok.
  assert (Hr1 : remove_alpha input_path output_path w1 = (Return true, r1.2))
    by (rewrite <- Hok; apply surjective_pairing).
  assert (Hr2 : remove_alpha input_path output_path w2 = (Return true, r2.2))
    by (rewrite <- Hok, Hfst; apply surjective_pairing).
  destruct (remove_alpha_true _ _ _ _ Hr1)
    as (bytes & img & img' & bytes' & Hb & Hdec & Hflat & _ & Henc & Hs1).
  destruct (remove_alpha_true _ _ _ _ Hr2)
    as (bytes2 & img2 & img2' & bytes2' & Hb2 & Hdec2 & Hflat2 & _ & Henc2 & Hs2).
  rewrite <- Hin, Hb in Hb2. injection Hb2 as <-.
  rewrite Hdec in Hdec2. injection Hdec2 as <-.
  rewrite Hflat in Hflat2. injection Hflat2 as <-.
  rewrite Henc in Henc2. injection Henc2 as <-.
  assert (Hout1 : fs r1.2 !! output_path = Some bytes')
    by (injection Hs1 as <-; apply lookup_insert_eq).
  assert (Hout2 : fs r2.2 !! output_path = Some bytes')
    by (injection Hs2 as <-; apply lookup_insert_eq).
  split; [by rewrite Hout1, Hout2|].
  exists img, img'. split.
  - split; [done|]. by exists bytes, bytes'.
  - split; [done|]. exists bytes, bytes'. by rewrite <- Hin.
Qed.

End Claims.

(** * The properties on concrete files *)

Lemma rgba_run_writes :
  writes (H := Raw.plugins) "in.png" "out.png" (Raw.world "in.png" Raw.rgba_file)
    (Raw.after "in.png" "out.png" (Raw.world "in.png" Raw.rgba_file))
    Raw.rgba_image Raw.rgba_flat.
Proof.
  split; [vm_compute; reflexivity|].
  eexists _, _. repeat split; vm_compute; reflexivity.
Defined.

(** A grey icon takes the [convert] branch; a file that is no image and a
    missing file are reported and leave the files alone. *)
Example grey_run :
  Raw.run "in.png" "in.png" (Raw.world "in.png" Raw.grey_file)
  = (Return true,
     mkWorld {[ "in.png" := [Byte.x02; Byte.x01; Byte.x01;
                             Byte.x64; Byte.x64; Byte.x64] ]} (λ _, true)
       ["✅ Icon fixed: in.png"; "   Mode: RGB"; "   Size: (1, 1)"]).
Proof. vm_compute. reflexivity. Qed.

Example corrupt_run :
  Raw.run "in.png" "in.png" (Raw.world "in.png" Raw.corrupt_file)
  = (Return false,
     mkWorld {[ "in.png" := Raw.corrupt_file ]} (λ _, true)
       ["❌ Error: cannot identify image file"]).
Proof. vm_compute. reflexivity. Qed.

Example main_exit_status :
  (main (H := Raw.plugins) (Raw.world input_file Raw.rgba_file)).1 = Return 0 ∧
  (main (H := Raw.plugins) (Raw.world input_file Raw.corrupt_file)).1 = Return 1.
Proof. split; vm_compute; reflexivity. Qed.

Lemma half_run_writes :
  writes (H := Raw.plugins) "in.png" "out.png" (Raw.world "in.png" Raw.half_file)
    (Raw.after "in.png" "out.png" (Raw.world "in.png" Raw.half_file))
    Raw.half_image Raw.half_flat.
Proof.
  split; [vm_compute; reflexivity|].
  eexists _, _. repeat split; vm_compute; reflexivity.
Defined.

Lemma rgb_run_writes :
  writes (H := Raw.plugins) "in.png" "in.png" (Raw.world "in.png" Raw.rgb_file)
    (Raw.after "in.png" "in.png" (Raw.world "in.png" Raw.rgb_file))
    Raw.rgb_image Raw.rgb_image.
Proof.
  split; [vm_compute; reflexivity|].
  eexists _, _. repeat split; vm_compute; reflexivity.
Defined.

Lemma la_run_writes :
  writes (H := Raw.plugins) "in.png" "in.png" (Raw.world "in.png" Raw.la_file)
    (Raw.after "in.png" "in.png" (Raw.world "in.png" Raw.la_file))
    Raw.la_image Raw.la_flat.
Proof.
  split; [vm_compute; reflexivity|].
  eexists _, _. repeat split; vm_compute; reflexivity.
Defined.

Ltac well_formed_image :=
  split; [reflexivity|];
  repeat first [ lia | reflexivity | apply Forall_nil_2
               | apply Forall_cons; split | split ].

Lemma rgba_image_well_formed : Image.well_formed Raw.rgba_image.
Proof. well_formed_image. Defined.

Lemma half_image_well_formed : Image.well_formed Raw.half_image.
Proof. well_formed_image. Defined.

Lemma la_image_well_formed : Image.well_formed Raw.la_image.
Proof. well_formed_image. Defined.

Lemma output_mode_is_RGB_witness :
  ∃ img img',
    writes (H := Raw.plugins) "in.png" "out.png"
      (Raw.world "in.png" Raw.rgba_file)
      (Raw.after "in.png" "out.png" (Raw.world "in.png" Raw.rgba_file))
      img img' ∧
    Image.mode img' = "RGB".
Proof.
  apply (output_mode_is_RGB (H := Raw.plugins)). vm_compute. reflexivity.
Defined.

Lemma output_size_is_input_size_witness :
  ∃ img img',
    writes (H := Raw.plugins) "in.png" "out.png"
      (Raw.world "in.png" Raw.rgba_file)
      (Raw.after "in.png" "out.png" (Raw.world "in.png" Raw.rgba_file))
      img img' ∧
    Image.size img' = Image.size img.
Proof.
  apply (output_size_is_input_size (H := Raw.plugins)). vm_compute. reflexivity.
Defined.

Lemma RGB_input_is_unchanged_witness :
  ∃ img',
    writes (H := Raw.plugins) "in.png" "in.png" (Raw.world "in.png" Raw.rgb_file)
      (Raw.after "in.png" "in.png" (Raw.world "in.png" Raw.rgb_file))
      Raw.rgb_image img' ∧
    img' = Raw.rgb_image.
Proof.
  eexists. split; [apply rgb_run_writes|].
  apply (RGB_input_is_unchanged (H := Raw.plugins) "in.png" "in.png"
           (Raw.world "in.png" Raw.rgb_file)
           (Raw.after "in.png" "in.png" (Raw.world "in.png" Raw.rgb_file)));
    [apply rgb_run_writes|reflexivity].
Defined.






Lemma failure_is_reported_witness :
  ∃ w',
    Raw.run "gone.png" "out.png" (Raw.world "in.png" Raw.rgba_file)
      = (Return false, w') ∧
    stdout w'
      = ["❌ Error: [Errno 2] No such file or directory: 'gone.png'"].
Proof.
  destruct (failure_is_reported (H := Raw.plugins) "gone.png" "out.png"
              (Raw.world "in.png" Raw.rgba_file) Decoding _
              (missing_input (H := Raw.plugins) "gone.png" "out.png"
                 (Raw.world "in.png" Raw.rgba_file) eq_refl))
    as (w' & Hrun & Hout).
  exists w'. split; [exact Hrun|exact Hout].
Defined.

Lemma decode_failure_leaves_files_witness :
  fs (Raw.run "out.png" "in.png" Raw.busy_world).2 = fs Raw.busy_world.
Proof.
  apply (decode_failure_leaves_files (H := Raw.plugins) "out.png" "in.png"
           Raw.busy_world Decoding
           (UnidentifiedImageError "cannot identify image file")).
  - apply (corrupt_input (H := Raw.plugins)) with Raw.corrupt_file; reflexivity.
  - discriminate.
Defined.

Lemma remove_alpha_deterministic_witness :
  let r1 := Raw.run "in.png" "out.png" (Raw.world "in.png" Raw.rgba_file) in
  let r2 := Raw.run "in.png" "out.png" Raw.busy_world in
  r1.1 = r2.1 ∧
  (r1.1 = Return true →
   fs r1.2 !! "out.png" = fs r2.2 !! "out.png" ∧
   ∃ img img',
     writes (H := Raw.plugins) "in.png" "out.png"
       (Raw.world "in.png" Raw.rgba_file) r1.2 img img' ∧
     writes (H := Raw.plugins) "in.png" "out.png" Raw.busy_world r2.2 img img').
Proof.
  apply (remove_alpha_deterministic (H := Raw.plugins) "in.png" "out.png"
           (Raw.world "in.png" Raw.rgba_file) Raw.busy_world);
    reflexivity.
Defined.

(** * Further properties of the script *)

(** ** The blend never darkens *)

Lemma BLEND_between (a c : Z) :
  0 ≤ a ≤ 255 → 0 ≤ c ≤ 255 → c ≤ BLEND a 255 c ≤ 255.
Proof.
  intros Ha Hc.
  destruct (BLEND_nearest a 255 c) as [Hrange Hnear]; [lia..|].
  split; [|lia]. nia.
Qed.

(** A paste through an "L" mask has a rule for every pixel. *)
Lemma paste_data_L_returns (mo mi : string) (out inn mask : list pixel) :
  ∃ d, Image.paste_data mo mi "L" out inn mask = Return d.
Proof.
  revert inn mask. induction out as [|o out IH]; intros inn mask; [by eexists|].
  destruct inn as [|i inn]; [by eexists|].
  destruct mask as [|m mask]; [by eexists|].
  cbn [Image.paste_data]. destruct (IH inn mask) as [d ->].
  by eexists.
Qed.

Section Extras.
Context `{!Image.Plugins}.

Lemma flatten_image_alpha_returns (img : Image.Image) (k : nat) :
  Image.mode img ∈ ["LA"; "RGBA"; "RGBa"] →
  ∃ img',
    Image.paste (Image.new "RGB" (Image.size img) [255; 255; 255]) img
      (Image.getband img k) = Return img'.
Proof.
  intros Hm. rewrite paste_alpha_on_RGB by done.
  unfold Image.core_paste, Image.new, Image.getband; cbn.
  rewrite decide_True by done.
  destruct (paste_data_L_returns "RGB" (Image.mode img)
              (replicate ((Image.size img).1 * (Image.size img).2) [255; 255; 255])
              (Image.data img)
              ((λ p : pixel, [p !!! k]) <$> Image.data img)) as [d ->].
  by eexists.
Qed.

(** ** Where compositing can fail *)

(** X1: the two alpha branches cannot fail: the band indices 3 and 1 exist
    and the canvas, the source and the mask have one size.  A failure
    between decoding and saving is therefore a mode other than RGBA, LA
    and RGB whose conversion to RGB the library refuses. *)
Theorem compositing_fails_only_in_convert (input_path output_path : string)
    (w : World) (e : Exception) :
  fails_at input_path output_path w Compositing e →
  ∃ bytes img,
    fs w !! input_path = Some bytes ∧
    Image.decode bytes = Return img ∧
    (Image.mode img ∉ ["RGBA"; "LA"; "RGB"]) ∧
    Image.convert img "RGB" = Raise e.
Proof.
  intros Hfail. inversion Hfail as [| |bytes img e' Hin Hdec Hflat| |]; subst.
  exists bytes, img. split; [done|split; [done|]].
  unfold flatten_image in Hflat.
  destruct (decide (Image.mode img ∈ ["RGBA"; "LA"])) as [Hal|Hal].
  - exfalso. rewrite !elem_of_cons, elem_of_nil in Hal.
    destruct Hal as [Hm|[Hm|[]]].
    + rewrite decide_True in Hflat by done.
      rewrite getitem_split in Hflat by (rewrite Hm, getbands_RGBA; cbn; lia).
      destruct (flatten_image_alpha_returns img 3) as [img' Hp];
        [rewrite Hm, !elem_of_cons; auto|].
      cbn [mbind Exc_bind] in Hflat. by rewrite Hp in Hflat.
    + rewrite decide_False in Hflat by (rewrite Hm; discriminate).
      rewrite getitem_split in Hflat by (rewrite Hm, getbands_LA; cbn; lia).
      destruct (flatten_image_alpha_returns img 1) as [img' Hp];
        [rewrite Hm, !elem_of_cons; auto|].
      cbn [mbind Exc_bind] in Hflat. by rewrite Hp in Hflat.
  - destruct (decide (Image.mode img ≠ "RGB")) as [Hrgb|Hrgb]; [|discriminate].
    split; [|done].
    rewrite !elem_of_cons, elem_of_nil in *. intros [?|[?|[?|[]]]]; tauto.
Qed.

(** ** Pixels of the image written *)





(** ** Files and console *)

(** X6: whatever the outcome, a run touches no file other than the one
    at the output path, and changes no permission. *)
Theorem only_output_path_is_written (input_path output_path path : string)
    (w : World) :
  path ≠ output_path →
  fs (remove_alpha input_path output_path w).2 !! path = fs w !! path ∧
  writable (remove_alpha input_path output_path w).2 = writable w.
Proof.
  intros Hne. rewrite remove_alpha_run. unfold failed, succeeded.
  repeat match goal with
         | |- context [match ?x with _ => _ end] => destruct x
         end; cbn; by rewrite ?lookup_insert_ne.
Qed.

(** X7: when the output path cannot be opened for writing, the run
    returns false and every file, the one at the output path included,
    is as it was. *)
Theorem unwritable_output_leaves_files (input_path output_path : string)
    (w : World) :
  writable w output_path = false →
  (remove_alpha input_path output_path w).1 = Return false ∧
  fs (remove_alpha input_path output_path w).2 = fs w.
Proof.
  intros Hw. rewrite remove_alpha_run, Hw. unfold failed.
  repeat match goal with
         | |- context [match ?x with _ => _ end] => destruct x
         end; done.
Qed.

(** X8: a successful run prints three lines: the output path, the mode,
    which is always RGB, and the size, which is that of the image
    read. *)
Theorem success_console_lines (input_path output_path : string)
    (w w' : World) (img img' : Image.Image) :
  writes input_path output_path w w' img img' →
  stdout w' =
  (stdout w ++ [ ("✅ Icon fixed: " ++ output_path)%string;
                 "   Mode: RGB";
                 ("   Size: " ++ repr_size (Image.size img))%string ])%list.
Proof.
  intros [Hrun (bytes & bytes' & Hin & Hdec & Hflat & Henc & _)].
  rewrite remove_alpha_run, Hin, Hdec, Hflat in Hrun.
  destruct (writable w output_path); [|discriminate].
  rewrite Henc in Hrun. injection Hrun as <-. cbn.
  by destruct (flatten_image_mode_size _ _ Hflat) as [-> ->].
Qed.

(** X9: the script is idempotent on its own output: if the file it wrote
    decodes to the image it saved, running it again in place on that file
    succeeds and leaves every file as it is. *)
Theorem rerun_in_place_changes_nothing (input_path output_path : string)
    (w w' : World) (img img' : Image.Image) (bytes' : list Byte.byte) :
  writes input_path output_path w w' img img' →
  fs w' !! output_path = Some bytes' →
  Image.decode bytes' = Return img' →
  (remove_alpha output_path output_path w').1 = Return true ∧
  fs (remove_alpha output_path output_path w').2 = fs w'.
Proof.
  intros [Hrun (bytes & bytes2 & Hin & Hdec & Hflat & Henc & Hout)] Hb Hd.
  rewrite Hb in Hout. injection Hout as <-.
  destruct (flatten_image_mode_size _ _ Hflat) as [Hm _].
  assert (Hw : writable w' output_path = true).
  { rewrite remove_alpha_run, Hin, Hdec, Hflat in Hrun.
    destruct (writable w output_path) eqn:Hw; [|discriminate].
    rewrite Henc in Hrun. by injection Hrun as <-. }
  rewrite remove_alpha_run, Hb, Hd, (flatten_image_RGB _ Hm), Hw, Henc.
  split; [done|]. cbn. by apply insert_id.
Qed.

(** ** The entry point *)

(** The world in which [main] calls [remove_alpha]. *)
Lemma main_run (w : World) :
  main w =
  let w0 := mkWorld (fs w) (writable w)
              (stdout w ++ [ "🔧 Fixing App Icon...";
                             ("   Input: " ++ input_file)%string ]) in
  match remove_alpha input_file output_file w0 with
  | (Raise e, w1) => (Raise e, w1)
  | (Return true, w1) =>
      (Return 0,
       mkWorld (fs w1) (writable w1)
         (stdout w1 ++ ["✅ App icon is now ready for App Store!"]))
  | (Return false, w1) =>
      (Return 1,
       mkWorld (fs w1) (writable w1)
         (stdout w1 ++ ["❌ Failed to fix app icon"]))
  end.
Proof.
  unfold main, mbind, Py_bind, print, mret, Py_ret.
  cbn [fs writable stdout]. rewrite <- app_assoc.
  change ([?a] ++ [?b])%list with [a; b]. cbv zeta.
  destruct (remove_alpha input_file output_file _) as [[e|[|]] w1]; reflexivity.
Qed.

Lemma fails_at_same_files (input_path output_path : string) (w w2 : World)
    (s : stage) (e : Exception) :
  fs w2 = fs w → writable w2 = writable w →
  fails_at input_path output_path w s e →
  fails_at input_path output_path w2 s e.
Proof.
  intros Hfs Hwr Hfail.
  destruct Hfail as [Hin|bytes e Hin Hdec|bytes img e Hin Hdec Hflat
                     |bytes img img' Hin Hdec Hflat Hw
                     |bytes img img' partial e Hin Hdec Hflat Hw Henc];
    rewrite <- Hfs in Hin; rewrite <- ?Hwr in *.
  - by apply missing_input.
  - by eapply corrupt_input.
  - by eapply composite_error.
  - by eapply unwritable_output.
  - by eapply encoder_error.
Qed.

Lemma failed_run (input_path output_path : string) (w : World)
    (s : stage) (e : Exception) :
  fails_at input_path output_path w s e →
  ∃ files,
    remove_alpha input_path output_path w
    = failed e (mkWorld files (writable w) (stdout w)).
Proof.
  intros Hfail. rewrite remove_alpha_run.
  destruct Hfail as [Hin|bytes e Hin Hdec|bytes img e Hin Hdec Hflat
                     |bytes img img' Hin Hdec Hflat Hw
                     |bytes img img' partial e Hin Hdec Hflat Hw Henc];
    rewrite Hin, ?Hdec, ?Hflat, ?Hw, ?Henc; by eexists.
Qed.

(** X13: a run returns true exactly when no stage fails: the file at
    the input path exists and decodes, the mode branch yields an image,
    the output path can be opened for writing and the encoder runs to its
    end. *)
Theorem success_iff_no_stage_fails (input_path output_path : string)
    (w : World) :
  (remove_alpha input_path output_path w).1 = Return true ↔
  ¬ ∃ s e, fails_at input_path output_path w s e.
Proof.
  split.
  - intros Hok (s & e & Hfail).
    destruct (failed_run _ _ _ _ _ Hfail) as [files Hrun].
    rewrite Hrun in Hok. discriminate.
  - intros Hnone.
    destruct (remove_alpha_returns input_path output_path w)
      as ([|] & w' & Hrun); rewrite Hrun; [done|].
    destruct Hnone. by eapply remove_alpha_false.
Qed.

(** X10: when a stage fails on the icon, [main] prints the start notice,
    the input path, the error and the failure notice, in that order, and
    exits with status 1. *)
Theorem main_reports_failure (w : World) (s : stage) (e : Exception) :
  fails_at input_file output_file w s e →
  (main w).1 = Return 1 ∧
  stdout (main w).2 =
  (stdout w ++ [ "🔧 Fixing App Icon...";
                 ("   Input: " ++ input_file)%string;
                 ("❌ Error: " ++ str e)%string;
                 "❌ Failed to fix app icon" ])%list.
Proof.
  intros Hfail. rewrite main_run. cbv zeta.
  match goal with
  | |- context [remove_alpha _ _ ?w0] =>
      pose proof (fails_at_same_files _ _ w w0 s e eq_refl eq_refl Hfail) as Hfail0
  end.
  destruct (failed_run _ _ _ _ _ Hfail0) as [files ->].
  unfold failed. cbn [fst snd stdout]. split; [done|].
  by rewrite <- !app_assoc.
Qed.

(** X11: when [main] exits with status 0, the icon file has been replaced,
    in place, by the encoding of an RGB image of the size of the image it
    held, and every other file is as it was. *)
Theorem main_exit_0_flattens_icon (w : World) :
  (main w).1 = Return 0 →
  ∃ bytes img img' bytes',
    fs w !! input_file = Some bytes ∧
    Image.decode bytes = Return img ∧
    flatten_image img = Return img' ∧
    Image.mode img' = "RGB" ∧
    Image.size img' = Image.size img ∧
    Image.encode "PNG" true img' = (bytes', None) ∧
    fs (main w).2 = <[input_file := bytes']> (fs w).
Proof.
  rewrite main_run. cbv zeta.
  destruct (remove_alpha input_file output_file _) as [[e|[|]] w1] eqn:Hrun;
    [discriminate| |discriminate].
  intros _.
  destruct (remove_alpha_true _ _ _ _ Hrun)
    as (bytes & img & img' & bytes' & Hin & Hdec & Hflat & _ & Henc & Hw1).
  destruct (flatten_image_mode_size _ _ Hflat) as [Hm Hs].
  exists bytes, img, img', bytes'. repeat split; try done.
  injection Hw1 as <-. reflexivity.
Qed.

(** X12: [main] ends with status 0 or with status 1, and with 1 only
    when decoding, compositing or encoding failed on the icon. *)
Theorem main_exit_1_only_on_failure (w : World) :
  (main w).1 ≠ Return 0 →
  (main w).1 = Return 1 ∧ ∃ s e, fails_at input_file output_file w s e.
Proof.
  rewrite main_run. cbv zeta.
  destruct (remove_alpha_returns input_file output_file
              (mkWorld (fs w) (writable w)
                 (stdout w ++ [ "🔧 Fixing App Icon...";
                                ("   Input: " ++ input_file)%string ])))
    as ([|] & w1 & Hrun); rewrite Hrun; [done|].
  intros _. split; [done|].
  destruct (remove_alpha_false _ _ _ _ Hrun) as (s & e & Hfail).
  exists s, e. eapply fails_at_same_files; [..|exact Hfail]; reflexivity.
Qed.

End Extras.

(** ** The further properties on concrete files *)

Lemma la2_run_writes :
  writes (H := Raw.plugins) "in.png" "out.png" (Raw.world "in.png" Raw.la2_file)
    (Raw.after "in.png" "out.png" (Raw.world "in.png" Raw.la2_file))
    Raw.la2_image Raw.la2_flat.
Proof.
  split; [vm_compute; reflexivity|].
  eexists _, _. repeat split; vm_compute; reflexivity.
Defined.

Lemma la2_image_well_formed : Image.well_formed Raw.la2_image.
Proof. well_formed_image. Defined.

Lemma compositing_fails_only_in_convert_witness :
  ∃ bytes img,
    fs (Raw.world "in.png" Raw.grey_file) !! "in.png" = Some bytes ∧
    Image.decode (Plugins := Raw.strict_plugins) bytes = Return img ∧
    (Image.mode img ∉ ["RGBA"; "LA"; "RGB"]) ∧
    Image.convert (H := Raw.strict_plugins) img "RGB"
      = Raise (ValueError "conversion from L to RGB not supported").
Proof.
  apply (compositing_fails_only_in_convert (H := Raw.strict_plugins)
           "in.png" "out.png" (Raw.world "in.png" Raw.grey_file)).
  apply (composite_error (H := Raw.strict_plugins) "in.png" "out.png"
           (Raw.world "in.png" Raw.grey_file) Raw.grey_file
           (Image.mkImage "L" (1%nat, 1%nat) [[100]]));
    vm_compute; reflexivity.
Defined.





Lemma only_output_path_is_written_witness :
  fs (Raw.run "in.png" "out.png" Raw.busy_world).2 !! "in.png"
    = fs Raw.busy_world !! "in.png" ∧
  writable (Raw.run "in.png" "out.png" Raw.busy_world).2
    = writable Raw.busy_world.
Proof.
  apply (only_output_path_is_written (H := Raw.plugins) "in.png" "out.png"
           "in.png" Raw.busy_world).
  discriminate.
Defined.

Lemma unwritable_output_leaves_files_witness :
  (Raw.run "in.png" "in.png" (Raw.locked_world "in.png" Raw.rgba_file)).1
    = Return false ∧
  fs (Raw.run "in.png" "in.png" (Raw.locked_world "in.png" Raw.rgba_file)).2
    = fs (Raw.locked_world "in.png" Raw.rgba_file).
Proof.
  apply (unwritable_output_leaves_files (H := Raw.plugins) "in.png" "in.png"
           (Raw.locked_world "in.png" Raw.rgba_file)).
  reflexivity.
Defined.

Lemma success_console_lines_witness :
  stdout (Raw.after "in.png" "out.png" (Raw.world "in.png" Raw.rgba_file))
  = ["✅ Icon fixed: out.png"; "   Mode: RGB"; "   Size: (2, 1)"].
Proof.
  exact (success_console_lines (H := Raw.plugins) "in.png" "out.png"
           (Raw.world "in.png" Raw.rgba_file)
           (Raw.after "in.png" "out.png" (Raw.world "in.png" Raw.rgba_file))
           Raw.rgba_image Raw.rgba_flat rgba_run_writes).
Defined.

Lemma rerun_in_place_changes_nothing_witness :
  (Raw.run "out.png" "out.png"
     (Raw.after "in.png" "out.png" (Raw.world "in.png" Raw.rgba_file))).1
    = Return true ∧
  fs (Raw.run "out.png" "out.png"
        (Raw.after "in.png" "out.png" (Raw.world "in.png" Raw.rgba_file))).2
    = fs (Raw.after "in.png" "out.png" (Raw.world "in.png" Raw.rgba_file)).
Proof.
  apply (rerun_in_place_changes_nothing (H := Raw.plugins) "in.png" "out.png"
           (Raw.world "in.png" Raw.rgba_file)
           (Raw.after "in.png" "out.png" (Raw.world "in.png" Raw.rgba_file))
           Raw.rgba_image Raw.rgba_flat
           [ Byte.x02; Byte.x02; Byte.x01; Byte.x0a; Byte.x14; Byte.x1e;
             Byte.xff; Byte.xff; Byte.xff ]);
    [apply rgba_run_writes|vm_compute; reflexivity|vm_compute; reflexivity].
Defined.

Lemma main_reports_failure_witness :
  (main (H := Raw.plugins) (Raw.world input_file Raw.corrupt_file)).1 = Return 1 ∧
  stdout (main (H := Raw.plugins) (Raw.world input_file Raw.corrupt_file)).2
  = [ "🔧 Fixing App Icon...";
      "   Input: Minds Flow/Assets.xcassets/AppIcon.appiconset/AppIcon-1024.png";
      "❌ Error: cannot identify image file";
      "❌ Failed to fix app icon" ].
Proof.
  exact (main_reports_failure (H := Raw.plugins)
           (Raw.world input_file Raw.corrupt_file) Decoding
           (UnidentifiedImageError "cannot identify image file")
           (corrupt_input (H := Raw.plugins) input_file output_file
              (Raw.world input_file Raw.corrupt_file) Raw.corrupt_file
              (UnidentifiedImageError "cannot identify image file")
              eq_refl eq_refl)).
Defined.

Lemma main_exit_0_flattens_icon_witness :
  ∃ bytes img img' bytes',
    fs (Raw.world input_file Raw.rgba_file) !! input_file = Some bytes ∧
    Image.decode (Plugins := Raw.plugins) bytes = Return img ∧
    flatten_image (H := Raw.plugins) img = Return img' ∧
    Image.mode img' = "RGB" ∧
    Image.size img' = Image.size img ∧
    Image.encode (Plugins := Raw.plugins) "PNG" true img' = (bytes', None) ∧
    fs (main (H := Raw.plugins) (Raw.world input_file Raw.rgba_file)).2
      = <[input_file := bytes']> (fs (Raw.world input_file Raw.rgba_file)).
Proof.
  apply (main_exit_0_flattens_icon (H := Raw.plugins)
           (Raw.world input_file Raw.rgba_file)).
  vm_compute. reflexivity.
Defined.

Lemma main_exit_1_only_on_failure_witness :
  (main (H := Raw.plugins) (Raw.world "elsewhere.png" Raw.rgba_file)).1
    = Return 1 ∧
  ∃ s e,
    fails_at (H := Raw.plugins) input_file output_file
      (Raw.world "elsewhere.png" Raw.rgba_file) s e.
Proof.
  apply (main_exit_1_only_on_failure (H := Raw.plugins)
           (Raw.world "elsewhere.png" Raw.rgba_file)).
  vm_compute. discriminate.
Defined.
